(** * Attribute lookup examples of pythess/descriptors/descriptors.ipynb

    Shallow embedding of the notebook's example classes: the
    name-mangling example ([Mapping], [MappingSubclass]), the toy
    [MyClassmethod], [MyStaticmethod] and [MyProperty] descriptors, the
    property-based [BasketballGame], and the [NonNegativeField]
    descriptor with [BasketballGameA], [BasketballGameB] and the
    [named_descriptors] class decorator.

    Python code that raises is modelled in a small state/exception
    monad: a computation takes the current state (for the validation
    examples, the instance [__dict__]) and returns a result together
    with the state reached when it returned or raised, so a mutation
    performed before a [raise] stays visible. *)

From stdpp Require Import base gmap strings list pretty.
From Stdlib Require Import Ascii.
From Stdlib Require PrimFloat.

#[local] Set Warnings "-register-all".


(** ** Exceptions, results and the state/exception monad *)

Inductive exc :=
| ValueError (msg : string)
| AttributeError (msg : string)
| KeyError (key : string)
| TypeError (msg : string)
| RecursionError.

Inductive result (A : Type) :=
| Ok (a : A)
| Raise (e : exc).
Arguments Ok {A} a.
Arguments Raise {A} e.

Definition PyM (S A : Type) := S -> result A * S.

Definition pyret {S A} (a : A) : PyM S A := fun s => (Ok a, s).

Definition pyraise {S A} (e : exc) : PyM S A := fun s => (Raise e, s).

Definition pybind {S A B} (m : PyM S A) (k : A -> PyM S B) : PyM S B :=
  fun s =>
    match m s with
    | (Ok a, s') => k a s'
    | (Raise e, s') => (Raise e, s')
    end.

Notation "'let!' x ':=' m 'in' k" := (pybind m (fun x => k))
  (at level 200, x name, m at level 100, k at level 200).

(** An instance [__dict__] holding numbers. *)
Abbreviation instdict := (gmap string Z).

(** [instance.__dict__[key]] *)
Definition dict_getitem (key : string) : PyM instdict Z :=
  fun d =>
    match d !! key with
    | Some v => (Ok v, d)
    | None => (Raise (KeyError key), d)
    end.

(** [instance.__dict__[key] = value] *)
Definition dict_setitem (key : string) (value : Z) : PyM instdict unit :=
  fun d => (Ok tt, <[key := value]> d).

(** ** The NonNegativeField descriptor (cell 25) *)

Module NonNeg.

(** The descriptor object: its only attribute is [field]. *)
Record NonNegativeField := { field : string }.

(** [NonNegativeField(field='')] *)
Definition NonNegativeField_init (field : string) : NonNegativeField :=
  {| field := field |}.

(** [def __get__(self, instance, owner): return instance.__dict__[self.field]] *)
Definition NonNegativeField_get (self : NonNegativeField) : PyM instdict Z :=
  dict_getitem (field self).

(** [def __set__(self, instance, value):
        if value < 0: raise ValueError('Positive values only!')
        instance.__dict__[self.field] = value] *)
Definition NonNegativeField_set (self : NonNegativeField) (value : Z)
  : PyM instdict unit :=
  let! _ := (if Z.ltb value 0
             then pyraise (ValueError "Positive values only!")
             else pyret tt) in
  dict_setitem (field self) value.

(** An entry of a class [__dict__]: a [NonNegativeField] (a data
    descriptor: it defines [__set__]) or a plain function (the
    [__init__] method; a non-data descriptor). *)
Inductive cattr :=
| CField (d : NonNegativeField)
| CFunction (name : string).

Definition class_dict := list (string * cattr).

Fixpoint cls_lookup (cd : class_dict) (name : string) : option cattr :=
  match cd with
  | [] => None
  | (n, a) :: cd' => if String.eqb n name then Some a else cls_lookup cd' name
  end.

(** What reading an attribute yields: a number or a bound method. *)
Inductive attr :=
| AInt (v : Z)
| AMethod (name : string)
| ANone.

(** [instance.name = value] through [object.__setattr__]: a data
    descriptor on the class takes the assignment, otherwise the value is
    stored in the instance [__dict__] under [name]. *)
Definition setattr (cd : class_dict) (name : string) (value : Z)
  : PyM instdict unit :=
  match cls_lookup cd name with
  | Some (CField d) => NonNegativeField_set d value
  | _ => dict_setitem name value
  end.

(** [instance.name] through [object.__getattribute__]: a data descriptor
    on the class first, then the instance [__dict__], then a function of
    the class (bound method), otherwise [AttributeError]. *)
Definition getattr (cd : class_dict) (name : string) : PyM instdict attr :=
  match cls_lookup cd name with
  | Some (CField d) => let! v := NonNegativeField_get d in pyret (AInt v)
  | oa =>
      fun st =>
        match st !! name, oa with
        | Some v, _ => (Ok (AInt v), st)
        | None, Some (CFunction f) => (Ok (AMethod f), st)
        | None, _ => (Raise (AttributeError name), st)
        end
  end.

(** [def __init__(self, points, rebounds, steals):
        self.points = points; self.rebounds = rebounds; self.steals = steals]
    (the same body in [BasketballGameA] and [BasketballGameB]) *)
Definition game_init (cd : class_dict) (points rebounds steals : Z)
  : PyM instdict unit :=
  let! _ := setattr cd "points" points in
  let! _ := setattr cd "rebounds" rebounds in
  setattr cd "steals" steals.

(** Constructing [cls(points, rebounds, steals)]: a fresh instance with
    an empty [__dict__] runs [__init__]; if it raises, no instance is
    returned. *)
Definition construct (cd : class_dict) (points rebounds steals : Z)
  : result instdict :=
  match game_init cd points rebounds steals ∅ with
  | (Ok _, d) => Ok d
  | (Raise e, _) => Raise e
  end.

(** The class bodies (cell 26 and cell 27), in body order. *)
Definition BasketballGameA : class_dict :=
  [("points", CField (NonNegativeField_init "points"));
   ("rebounds", CField (NonNegativeField_init "rebounds"));
   ("steals", CField (NonNegativeField_init "steals"));
   ("__init__", CFunction "__init__")].

Definition BasketballGameB_body : class_dict :=
  [("points", CField (NonNegativeField_init ""));
   ("rebounds", CField (NonNegativeField_init ""));
   ("steals", CField (NonNegativeField_init ""));
   ("__init__", CFunction "__init__")].

(** [def named_descriptors(cls):
        for name, attr in cls.__dict__.items():
            if isinstance(attr, NonNegativeField): attr.field = name
        return cls]
    Each descriptor object is bound under one name only, so updating it
    in place is the same as rebuilding the entry. *)
Definition named_descriptors (cd : class_dict) : class_dict :=
  map (fun '(name, a) =>
         match a with
         | CField d => (name, CField {| field := name |})
         | CFunction f => (name, CFunction f)
         end) cd.

Definition BasketballGameB : class_dict := named_descriptors BasketballGameB_body.

(** Attribute operations a client performs on an instance. An exception
    raised by one operation is caught by the client, which goes on with
    the instance as the raise left it. *)
Inductive op :=
| OSet (name : string) (value : Z)
| OGet (name : string).

Definition run_op (cd : class_dict) (o : op) : PyM instdict attr :=
  match o with
  | OSet name v => let! _ := setattr cd name v in pyret ANone
  | OGet name => getattr cd name
  end.

Fixpoint run_ops (cd : class_dict) (ops : list op) (st : instdict)
  : list (result attr) * instdict :=
  match ops with
  | [] => ([], st)
  | o :: ops' =>
      let (r, st1) := run_op cd o st in
      let (rs, st2) := run_ops cd ops' st1 in
      (r :: rs, st2)
  end.

(** A client session: construct the instance, then run the operations. *)
Definition session (cd : class_dict) (points rebounds steals : Z) (ops : list op)
  : result (list (result attr) * instdict) :=
  match construct cd points rebounds steals with
  | Ok d => Ok (run_ops cd ops d)
  | Raise e => Raise e
  end.

End NonNeg.
(** ** The property-based BasketballGame (cell 24) *)

Module Game.

(** [self._name] read from an instance whose class has no such
    attribute: the instance [__dict__], else [AttributeError]. *)
Definition inst_getattr (name : string) : PyM instdict Z :=
  fun d =>
    match d !! name with
    | Some v => (Ok v, d)
    | None => (Raise (AttributeError name), d)
    end.

(** [@property def points(self): return self._points] *)
Definition points_get : PyM instdict Z := inst_getattr "_points".

(** [@points.setter def points(self, value):
        if value < 0: raise ValueError('Positive values only!')
        self._points = value] *)
Definition points_set (value : Z) : PyM instdict unit :=
  let! _ := (if Z.ltb value 0
             then pyraise (ValueError "Positive values only!")
             else pyret tt) in
  dict_setitem "_points" value.

Definition rebounds_get : PyM instdict Z := inst_getattr "_rebounds".

Definition rebounds_set (value : Z) : PyM instdict unit :=
  let! _ := (if Z.ltb value 0
             then pyraise (ValueError "Positive values only!")
             else pyret tt) in
  dict_setitem "_rebounds" value.

Definition steals_get : PyM instdict Z := inst_getattr "_steals".

Definition steals_set (value : Z) : PyM instdict unit :=
  let! _ := (if Z.ltb value 0
             then pyraise (ValueError "Positive values only!")
             else pyret tt) in
  dict_setitem "_steals" value.

(** [def __init__(self, points, rebounds, steals, blocks)]: three
    property assignments, then a plain attribute [blocks]. *)
Definition BasketballGame_init (points rebounds steals blocks : Z)
  : PyM instdict unit :=
  let! _ := points_set points in
  let! _ := rebounds_set rebounds in
  let! _ := steals_set steals in
  dict_setitem "blocks" blocks.

End Game.

(** ** NonNegativeField over Python numbers

    The same descriptor and classes with values that are Python [int]s
    or [float]s (IEEE doubles, Rocq's primitive floats), compared as
    Python compares them. The class dictionaries of [NonNeg] are reused:
    they do not depend on the values. *)

Module NonNegNum.

Inductive pynum :=
| NInt (z : Z)
| NFloat (f : PrimFloat.float).

(** [value < 0] *)
Definition lt0 (v : pynum) : bool :=
  match v with
  | NInt z => Z.ltb z 0
  | NFloat f => PrimFloat.ltb f PrimFloat.zero
  end.

(** [value >= 0] *)
Definition ge0 (v : pynum) : bool :=
  match v with
  | NInt z => Z.leb 0 z
  | NFloat f => PrimFloat.leb PrimFloat.zero f
  end.

Abbreviation numdict := (gmap string pynum).

Definition dict_getitem (key : string) : PyM numdict pynum :=
  fun d =>
    match d !! key with
    | Some v => (Ok v, d)
    | None => (Raise (KeyError key), d)
    end.

Definition dict_setitem (key : string) (value : pynum) : PyM numdict unit :=
  fun d => (Ok tt, <[key := value]> d).

(** [def __get__(self, instance, owner): return instance.__dict__[self.field]] *)
Definition NonNegativeField_get (self : NonNeg.NonNegativeField) : PyM numdict pynum :=
  dict_getitem (NonNeg.field self).

(** [def __set__(self, instance, value):
        if value < 0: raise ValueError('Positive values only!')
        instance.__dict__[self.field] = value] *)
Definition NonNegativeField_set (self : NonNeg.NonNegativeField) (value : pynum)
  : PyM numdict unit :=
  let! _ := (if lt0 value
             then pyraise (ValueError "Positive values only!")
             else pyret tt) in
  dict_setitem (NonNeg.field self) value.

Inductive nattr :=
| NVal (v : pynum)
| NMethod (name : string)
| NNone.

(** [instance.name = value], as in [NonNeg.setattr]. *)
Definition setattr (cd : NonNeg.class_dict) (name : string) (value : pynum)
  : PyM numdict unit :=
  match NonNeg.cls_lookup cd name with
  | Some (NonNeg.CField d) => NonNegativeField_set d value
  | _ => dict_setitem name value
  end.

(** [instance.name], as in [NonNeg.getattr]. *)
Definition getattr (cd : NonNeg.class_dict) (name : string) : PyM numdict nattr :=
  match NonNeg.cls_lookup cd name with
  | Some (NonNeg.CField d) => let! v := NonNegativeField_get d in pyret (NVal v)
  | oa =>
      fun st =>
        match st !! name, oa with
        | Some v, _ => (Ok (NVal v), st)
        | None, Some (NonNeg.CFunction f) => (Ok (NMethod f), st)
        | None, _ => (Raise (AttributeError name), st)
        end
  end.

(** [__init__] of [BasketballGameA] and [BasketballGameB]. *)
Definition game_init (cd : NonNeg.class_dict) (points rebounds steals : pynum)
  : PyM numdict unit :=
  let! _ := setattr cd "points" points in
  let! _ := setattr cd "rebounds" rebounds in
  setattr cd "steals" steals.

Definition construct (cd : NonNeg.class_dict) (points rebounds steals : pynum)
  : result numdict :=
  match game_init cd points rebounds steals ∅ with
  | (Ok _, d) => Ok d
  | (Raise e, _) => Raise e
  end.

Inductive op :=
| OSet (name : string) (value : pynum)
| OGet (name : string).

(** The name an operation reads or assigns. *)
Definition op_name (o : op) : string :=
  match o with
  | OSet name _ => name
  | OGet name => name
  end.

Definition run_op (cd : NonNeg.class_dict) (o : op) : PyM numdict nattr :=
  match o with
  | OSet name v => let! _ := setattr cd name v in pyret NNone
  | OGet name => getattr cd name
  end.

Fixpoint run_ops (cd : NonNeg.class_dict) (ops : list op) (st : numdict)
  : list (result nattr) * numdict :=
  match ops with
  | [] => ([], st)
  | o :: ops' =>
      let (r, st1) := run_op cd o st in
      let (rs, st2) := run_ops cd ops' st1 in
      (r :: rs, st2)
  end.

Definition session (cd : NonNeg.class_dict) (points rebounds steals : pynum)
    (ops : list op) : result (list (result nattr) * numdict) :=
  match construct cd points rebounds steals with
  | Ok d => Ok (run_ops cd ops d)
  | Raise e => Raise e
  end.

End NonNegNum.

(** ** Name mangling: Mapping and MappingSubclass (cell 2) *)

Module Mangling.

(** The items the examples put in [items_list]: numbers, strings and the
    tuples built by [zip]. *)
Inductive val :=
| VInt (z : Z)
| VStr (s : string)
| VTuple (l : list val).

(** The function objects defined in the two class bodies. *)
Inductive func :=
| Mapping_init
| Mapping_update
| MappingSubclass_update.

(** A class: its name, its base class and its [__dict__]. *)
Inductive pyclass :=
| PyClass (name : string) (base : option pyclass) (dict : list (string * func)).

Fixpoint assoc (d : list (string * func)) (name : string) : option func :=
  match d with
  | [] => None
  | (n, f) :: d' => if String.eqb n name then Some f else assoc d' name
  end.

(** Attribute lookup along the method resolution order of a class with
    single inheritance: the class itself, then its bases. *)
Fixpoint lookup_mro (c : pyclass) (name : string) : option func :=
  match c with
  | PyClass _ base d =>
      match assoc d name with
      | Some f => Some f
      | None =>
          match base with
          | Some b => lookup_mro b name
          | None => None
          end
      end
  end.

Fixpoint lstrip_underscore (s : string) : string :=
  match s with
  | String c s' => if Ascii.eqb c "_"%char then lstrip_underscore s' else s
  | EmptyString => EmptyString
  end.

Definition ends_with_dunder (name : string) : bool :=
  let n := String.length name in
  (2 <=? n)%nat && String.eqb (String.substring (n - 2) 2 name) "__".

(** The compile-time rewrite of an identifier [name] written inside the
    body of class [clsname]: [__spam] becomes [_clsname__spam] (leading
    underscores of the class name stripped), names ending in two
    underscores are left alone. *)
Definition mangle (clsname name : string) : string :=
  let stripped := lstrip_underscore clsname in
  if String.prefix "__" name && negb (ends_with_dunder name)
     && negb (String.eqb stripped "")
  then String.append "_" (String.append stripped name)
  else name.

(** [class Mapping:] with [__init__], [update] and
    [__update = update] (bound under its mangled name). *)
Definition Mapping : pyclass :=
  PyClass "Mapping" None
    [("__init__", Mapping_init);
     ("update", Mapping_update);
     (mangle "Mapping" "__update", Mapping_update)].

(** [class MappingSubclass(Mapping):] overriding [update(self, keys, values)]. *)
Definition MappingSubclass : pyclass :=
  PyClass "MappingSubclass" (Some Mapping) [("update", MappingSubclass_update)].

(** An instance: its class and its [items_list] attribute (the only
    entry its [__dict__] ever holds). *)
Record obj := { obj_cls : pyclass; items_list : list val }.

(** [for item in iterable: self.items_list.append(item)] *)
Definition append_all (items iterable : list val) : list val :=
  fold_left (fun l item => l ++ [item]) iterable items.

(** [zip(keys, values)] *)
Definition zip (keys values : list val) : list val :=
  map (fun '(k, v) => VTuple [k; v]) (combine keys values).

(** Calling a function of the class bodies with [self] and positional
    arguments (each one an iterable); a wrong number of arguments raises
    [TypeError]. [fuel] bounds the call depth. *)
Fixpoint call (fuel : nat) (f : func) (self : obj) (args : list (list val))
  : result obj :=
  match fuel with
  | O => Raise RecursionError
  | S fuel' =>
      match f, args with
      | Mapping_init, [iterable] =>
          (* self.items_list = [] *)
          let self := {| obj_cls := obj_cls self; items_list := [] |} in
          (* self.__update(iterable), i.e. self._Mapping__update(iterable) *)
          match lookup_mro (obj_cls self) (mangle "Mapping" "__update") with
          | Some g => call fuel' g self [iterable]
          | None => Raise (AttributeError (mangle "Mapping" "__update"))
          end
      | Mapping_update, [iterable] =>
          Ok {| obj_cls := obj_cls self;
                items_list := append_all (items_list self) iterable |}
      | MappingSubclass_update, [keys; values] =>
          Ok {| obj_cls := obj_cls self;
                items_list := append_all (items_list self) (zip keys values) |}
      | _, _ => Raise (TypeError "wrong number of arguments")
      end
  end.

Definition default_fuel : nat := 100.

(** [self.name( *args)]: the method found along the class's MRO. *)
Definition call_method (self : obj) (name : string) (args : list (list val))
  : result obj :=
  match lookup_mro (obj_cls self) name with
  | Some f => call default_fuel f self args
  | None => Raise (AttributeError name)
  end.

(** [cls( *args)]: a fresh instance on which [__init__] runs. *)
Definition new (c : pyclass) (args : list (list val)) : result obj :=
  call_method {| obj_cls := c; items_list := [] |} "__init__" args.

(** [obj.name( *args)] on the object a previous call returned,
    propagating an exception raised before. *)
Definition then_call (r : result obj) (name : string) (args : list (list val))
  : result obj :=
  match r with
  | Ok o => call_method o name args
  | Raise e => Raise e
  end.

(** The same [__init__] written with the plain name [self.update]
    instead of the private [self.__update]: the design the notebook's
    comment says the mangled copy protects against. *)
Definition init_unmangled (self : obj) (iterable : list val) : result obj :=
  let self := {| obj_cls := obj_cls self; items_list := [] |} in
  call_method self "update" [iterable].

End Mangling.

(** ** The toy descriptors MyClassmethod, MyStaticmethod (cell 16) and
    MyProperty (cell 19) *)

(** A Python callable on values with positional and keyword arguments,
    acting on a global state [St]. *)
Definition pyfunc (St Val : Type) :=
  list Val -> list (string * Val) -> PyM St Val.

Module Classmethod.
Section Classmethod.
Context {St Obj Val : Type}.

Record MyClassmethod := { func : pyfunc St Val }.

(** [def __init__(self, func): self.func = func] *)
Definition MyClassmethod_init (f : pyfunc St Val) : MyClassmethod :=
  {| func := f |}.

(** [def __get__(self, instance, owner):
        def cls_wrapper( *args, **kwargs):
            return self.func(owner, *args, **kwargs)
        return cls_wrapper] *)
Definition MyClassmethod_get (self : MyClassmethod) (instance : option Obj)
  (owner : Val) : pyfunc St Val :=
  fun args kwargs => func self (owner :: args) kwargs.

End Classmethod.
End Classmethod.

Module Staticmethod.
Section Staticmethod.
Context {St Obj Val : Type}.

Record MyStaticmethod := { func : pyfunc St Val }.

(** [def __init__(self, func): self.func = func] *)
Definition MyStaticmethod_init (f : pyfunc St Val) : MyStaticmethod :=
  {| func := f |}.

(** [def __get__(self, instance, owner): return self.func] *)
Definition MyStaticmethod_get (self : MyStaticmethod) (instance : option Obj)
  (owner : Val) : pyfunc St Val :=
  func self.

End Staticmethod.
End Staticmethod.

Module Property.
Section Property.
Context {St Obj Val Cls : Type}.

Record MyProperty := {
  fget : option (Obj -> PyM St Val);
  fset : option (Obj -> Val -> PyM St Val);
  fdel : option (Obj -> PyM St Val)
}.

(** [def __init__(self, fget=None, fset=None, fdel=None)] *)
Definition MyProperty_init fget fset fdel : MyProperty :=
  {| fget := fget; fset := fset; fdel := fdel |}.

(** What [__get__] returns: the descriptor itself or a computed value. *)
Inductive got :=
| GotDescriptor (p : MyProperty)
| GotValue (v : Val).

(** [def __get__(self, instance, owner):
        if instance is None: return self
        elif self.fget is None: raise AttributeError("unreadable attribute")
        else: return self.fget(instance)] *)
Definition MyProperty_get (self : MyProperty) (instance : option Obj)
  (owner : Cls) : PyM St got :=
  match instance with
  | None => pyret (GotDescriptor self)
  | Some inst =>
      match fget self with
      | None => pyraise (AttributeError "unreadable attribute")
      | Some g => let! v := g inst in pyret (GotValue v)
      end
  end.

(** [def __set__(self, instance, value):
        if self.fset is None: raise AttributeError("can't set attribute")
        else: self.fset(instance, value)] *)
Definition MyProperty_set (self : MyProperty) (instance : Obj) (value : Val)
  : PyM St unit :=
  match fset self with
  | None => pyraise (AttributeError "can't set attribute")
  | Some s => let! _ := s instance value in pyret tt
  end.

(** [def __delete__(self, instance):
        if self.fdel is None: raise AttributeError("can't delete attribute")
        else: self.fdel(instance)] *)
Definition MyProperty_delete (self : MyProperty) (instance : Obj)
  : PyM St unit :=
  match fdel self with
  | None => pyraise (AttributeError "can't delete attribute")
  | Some d => let! _ := d instance in pyret tt
  end.

Definition getter (self : MyProperty) g : MyProperty :=
  MyProperty_init g (fset self) (fdel self).

Definition setter (self : MyProperty) s : MyProperty :=
  MyProperty_init (fget self) s (fdel self).

Definition deleter (self : MyProperty) d : MyProperty :=
  MyProperty_init (fget self) (fset self) d.

(** Attribute access on a class [owner] whose [__dict__] binds the name
    to [p]. [MyProperty] defines [__set__] and [__delete__], so it is a
    data descriptor and the instance [__dict__] is never consulted:
    [a.x] is [p.__get__(a, type(a))], [A.x] is [p.__get__(None, A)],
    [a.x = v] is [p.__set__(a, v)] and [del a.x] is [p.__delete__(a)]. *)
Definition load_inst (p : MyProperty) (a : Obj) (owner : Cls) : PyM St got :=
  MyProperty_get p (Some a) owner.

Definition load_cls (p : MyProperty) (owner : Cls) : PyM St got :=
  MyProperty_get p None owner.

Definition store_inst (p : MyProperty) (a : Obj) (v : Val) : PyM St unit :=
  MyProperty_set p a v.

Definition delete_inst (p : MyProperty) (a : Obj) : PyM St unit :=
  MyProperty_delete p a.

End Property.
End Property.

(** ** Attribute resolution order with [__getattr__] (cell 7) *)

Module Shadowing.

(** The values of the example: [None], numbers and strings. *)
Inductive pv :=
| PNone
| PInt (z : Z)
| PStr (s : string).

(** A class [__dict__] entry: a plain value, a function (a non-data
    descriptor), or a data descriptor such as the [__dict__] and
    [__weakref__] getset descriptors Python adds to a class. *)
Inductive centry :=
| CVal (v : pv)
| CFunc (name : string)
| CDataDesc (name : string).

Definition cdict := list (string * centry).

Fixpoint clookup (cd : cdict) (name : string) : option centry :=
  match cd with
  | [] => None
  | (n, e) :: cd' => if String.eqb n name then Some e else clookup cd' name
  end.

(** [class B: x = 1], with the entries Python adds to a class without a
    base of its own: [__module__], [__dict__], [__weakref__], [__doc__]. *)
Definition B_dict : cdict :=
  [("__module__", CVal (PStr "__main__"));
   ("x", CVal (PInt 1));
   ("__dict__", CDataDesc "__dict__");
   ("__weakref__", CDataDesc "__weakref__");
   ("__doc__", CVal PNone)].

(** [class A(B): y = 2; def __getattr__(self, value): return str(value)],
    as cell 7 prints [A.__dict__]. *)
Definition A_dict : cdict :=
  [("__module__", CVal (PStr "__main__"));
   ("y", CVal (PInt 2));
   ("__getattr__", CFunc "__getattr__");
   ("__doc__", CVal PNone)].

Fixpoint mro_lookup (mro : list cdict) (name : string) : option centry :=
  match mro with
  | [] => None
  | cd :: mro' =>
      match clookup cd name with
      | Some e => Some e
      | None => mro_lookup mro' name
      end
  end.

(** What [a.name] yields. [RDescr] is the result of a data descriptor's
    own [__get__] (the instance's [__dict__] object, its weak reference,
    [object]'s [__class__]), not modelled further. *)
Inductive res :=
| RVal (v : pv)
| RMethod (name : string)
| RDescr (name : string).

Section Lookup.
(** The [__dict__] of [object], last in every MRO. *)
Context (object_dict : cdict).

(** [type(a).__mro__] for an instance [a] of [A]. *)
Definition mro_A : list cdict := [A_dict; B_dict; object_dict].

(** [a.name] for an instance [a] of [A] with instance [__dict__] [inst]
    ([object.__getattribute__], then [A.__getattr__] when it fails): a
    data descriptor along the MRO wins; otherwise the instance [__dict__]
    comes first, then the class entry; when nothing is found,
    [A.__getattr__(a, name)] returns [str(name)]. *)
Definition inst_getattr (inst : gmap string pv) (name : string) : res :=
  match mro_lookup mro_A name with
  | Some (CDataDesc n) => RDescr n
  | Some (CVal v) =>
      match inst !! name with Some w => RVal w | None => RVal v end
  | Some (CFunc f) =>
      match inst !! name with Some w => RVal w | None => RMethod f end
  | None =>
      match inst !! name with Some w => RVal w | None => RVal (PStr name) end
  end.

(** [a.name = v] ([object.__setattr__]): a data descriptor along the MRO
    takes the assignment through its own [__set__] ([None] here: not
    modelled further); otherwise [v] goes into the instance [__dict__]. *)
Definition inst_setattr (inst : gmap string pv) (name : string) (v : pv)
  : option (gmap string pv) :=
  match mro_lookup mro_A name with
  | Some (CDataDesc _) => None
  | _ => Some (<[name := v]> inst)
  end.

End Lookup.

(** A name Python reserves for its own attributes: it starts with two
    underscores. Every entry of [object]'s [__dict__] is such a name. *)
Definition dunder_prefixed (name : string) : bool := String.prefix "__" name.

End Shadowing.

(** ** A class using MyProperty (cells 20 and 21) *)

Module PropertyDemo.

(** Python values of the example. *)
Inductive pv :=
| PNone
| PInt (z : Z)
| PStr (s : string).

(** [str(v)], as used by ["{}".format(v)]. *)
Definition py_str (v : pv) : string :=
  match v with
  | PNone => "None"
  | PInt z => pretty z
  | PStr s => s
  end.

(** The state: the instance [__dict__] of [a] and the lines printed. *)
Record state := { idict : gmap string pv; out : list string }.

Definition print (line : string) : PyM state unit :=
  fun st => (Ok tt, {| idict := idict st; out := out st ++ [line] |}).

(** [self.name] for a name [A] does not define: the instance [__dict__]. *)
Definition self_getattr (name : string) : PyM state pv :=
  fun st =>
    match idict st !! name with
    | Some v => (Ok v, st)
    | None => (Raise (AttributeError name), st)
    end.

(** [self.name = v] for a name [A] does not define. *)
Definition self_setattr (name : string) (v : pv) : PyM state unit :=
  fun st => (Ok tt, {| idict := <[name := v]> (idict st); out := out st |}).

(** [@MyProperty def x(self):
        print("returning _x: {}".format(self._x))
        return self._x] *)
Definition x_fget (self : unit) : PyM state pv :=
  let! v := self_getattr "_x" in
  let! _ := print (String.append "returning _x: " (py_str v)) in
  self_getattr "_x".

(** [@x.setter def x(self, value):
        print("setting _x to {}".format(value))
        self._x = value] *)
Definition x_fset (self : unit) (value : pv) : PyM state pv :=
  let! _ := print (String.append "setting _x to " (py_str value)) in
  let! _ := self_setattr "_x" value in
  pyret PNone.

(** The descriptor bound to [x]: [MyProperty(x)] then [.setter(x)]. *)
Definition x_prop : @Property.MyProperty state unit pv :=
  Property.setter (Property.MyProperty_init (Some x_fget) None None) (Some x_fset).

(** [def __init__(self, x): self._x = x] *)
Definition A_init (x : pv) : PyM state unit := self_setattr "_x" x.

(** What [A.__dict__['x']] holds: the descriptor, or (after
    [A.x = 'bye bye descriptor']) a plain value. *)
Inductive xattr :=
| XProp (p : @Property.MyProperty state unit pv)
| XPlain (v : pv).

(** [a.x]: the data descriptor, or else the instance [__dict__] before
    the plain class value. *)
Definition get_x (c : xattr) : PyM state (@Property.got state unit pv) :=
  match c with
  | XProp p => Property.load_inst p tt tt
  | XPlain v =>
      fun st =>
        match idict st !! "x" with
        | Some w => (Ok (Property.GotValue w), st)
        | None => (Ok (Property.GotValue v), st)
        end
  end.

(** [a.x = v] *)
Definition set_x (c : xattr) (v : pv) : PyM state unit :=
  match c with
  | XProp p => Property.store_inst p tt v
  | XPlain _ => self_setattr "x" v
  end.

(** [del a.x] *)
Definition del_x (c : xattr) : PyM state unit :=
  match c with
  | XProp p => Property.delete_inst p tt
  | XPlain _ =>
      fun st =>
        match idict st !! "x" with
        | Some _ => (Ok tt, {| idict := delete "x" (idict st); out := out st |})
        | None => (Raise (AttributeError "x"), st)
        end
  end.

(** Operations on [a.x] a client performs, exceptions caught. *)
Inductive xop :=
| XGet
| XSet (v : pv)
| XDel.

Definition run_xop (c : xattr) (o : xop) : PyM state unit :=
  match o with
  | XGet => let! _ := get_x c in pyret tt
  | XSet v => set_x c v
  | XDel => del_x c
  end.

Fixpoint run_xops (c : xattr) (ops : list xop) (st : state) : state :=
  match ops with
  | [] => st
  | o :: ops' => run_xops c ops' (snd (run_xop c o st))
  end.

End PropertyDemo.

(** ** Sanity checks on the notebook's own runs (cells 28 and 29) *)

Example cell28_run :
  NonNeg.session NonNeg.BasketballGameA 100 30 10
    [NonNeg.OGet "points"; NonNeg.OGet "rebounds"; NonNeg.OSet "points" (-5)]
  = Ok ([Ok (NonNeg.AInt 100); Ok (NonNeg.AInt 30);
         Raise (ValueError "Positive values only!")],
        <["steals" := 10%Z]> (<["rebounds" := 30%Z]> (<["points" := 100%Z]> ∅))).
Proof. reflexivity. Qed.

Example cell29_run :
  NonNeg.session NonNeg.BasketballGameB 100 30 10
    [NonNeg.OGet "points"; NonNeg.OGet "rebounds"; NonNeg.OSet "points" (-5)]
  = Ok ([Ok (NonNeg.AInt 100); Ok (NonNeg.AInt 30);
         Raise (ValueError "Positive values only!")],
        <["steals" := 10%Z]> (<["rebounds" := 30%Z]> (<["points" := 100%Z]> ∅))).
Proof. reflexivity. Qed.

Example cell3_run :
  let m := Mangling.new Mangling.MappingSubclass
             [[Mangling.VInt 1; Mangling.VInt 2]] in
  match m with
  | Ok o =>
      match Mangling.call_method o "update"
              [[Mangling.VInt 3; Mangling.VInt 4];
               [Mangling.VStr "three"; Mangling.VStr "four"]] with
      | Ok o2 =>
          match Mangling.call_method o2 "_Mapping__update"
                  [[Mangling.VInt 5; Mangling.VInt 6]] with
          | Ok o3 => Some (Mangling.items_list o3)
          | Raise _ => None
          end
      | Raise _ => None
      end
  | Raise _ => None
  end
  = Some [Mangling.VInt 1; Mangling.VInt 2;
          Mangling.VTuple [Mangling.VInt 3; Mangling.VStr "three"];
          Mangling.VTuple [Mangling.VInt 4; Mangling.VStr "four"];
          Mangling.VInt 5; Mangling.VInt 6].
Proof. reflexivity. Qed.

Example cell21_run :
  let c := PropertyDemo.XProp PropertyDemo.x_prop in
  let st0 := {| PropertyDemo.idict := ∅; PropertyDemo.out := [] |} in
  let st1 := snd (PropertyDemo.A_init (PropertyDemo.PInt 1) st0) in
  let (r1, st2) := PropertyDemo.get_x c st1 in
  let st3 := snd (PropertyDemo.set_x c (PropertyDemo.PInt 2) st2) in
  let (r2, st4) := PropertyDemo.get_x c st3 in
  let c' := PropertyDemo.XPlain (PropertyDemo.PStr "bye bye descriptor") in
  let (r3, st5) := PropertyDemo.get_x c' st4 in
  (r1, r2, r3, PropertyDemo.out st5)
  = (Ok (Property.GotValue (PropertyDemo.PInt 1)),
     Ok (Property.GotValue (PropertyDemo.PInt 2)),
     Ok (Property.GotValue (PropertyDemo.PStr "bye bye descriptor")),
     ["returning _x: 1"; "setting _x to 2"; "returning _x: 2"]).
Proof. vm_compute. reflexivity. Qed.

(** ** Helper lemmas for the validation field *)

Module NonNegFacts.
Import NonNeg.

(** The fields guarded by the validators. *)
Definition game_fields : list string := ["points"; "rebounds"; "steals"].

(** The stored value of every guarded field is non-negative. *)
Definition fields_nonneg (st : instdict) : Prop :=
  forall k v, In k game_fields -> st !! k = Some v -> (0 <= v)%Z.

(** A computation keeps [fields_nonneg] in the state it ends in, whether
    it returns or raises. *)
Definition preserves {A} (m : PyM instdict A) : Prop :=
  forall st, fields_nonneg st -> fields_nonneg (snd (m st)).

Lemma preserves_bind {A B} (m : PyM instdict A) (k : A -> PyM instdict B) :
  preserves m -> (forall a, preserves (k a)) -> preserves (pybind m k).
Proof.
  intros Hm Hk st Hst. unfold pybind.
  specialize (Hm st Hst). destruct (m st) as [[a|e] st']; simpl in *; [apply Hk|]; exact Hm.
Qed.

Lemma preserves_ret {A} (a : A) : preserves (pyret a).
Proof. intros st H. exact H. Qed.

Lemma preserves_raise {A} e : preserves (pyraise (A:=A) e).
Proof. intros st H. exact H. Qed.

Lemma fields_nonneg_empty : fields_nonneg ∅.
Proof. intros k v _ H. rewrite lookup_empty in H. discriminate. Qed.

Lemma BasketballGameB_eq : BasketballGameB = BasketballGameA.
Proof. reflexivity. Qed.

(** In [BasketballGameA], a name bound to a field descriptor stores under
    that same name, and each guarded name is bound to a field. *)
Lemma lookup_A_field name d :
  cls_lookup BasketballGameA name = Some (CField d) -> field d = name.
Proof.
  unfold BasketballGameA. cbn [cls_lookup].
  destruct (String.eqb_spec "points" name) as [<-|_];
    [intros Hs; injection Hs as <-; reflexivity|].
  destruct (String.eqb_spec "rebounds" name) as [<-|_];
    [intros Hs; injection Hs as <-; reflexivity|].
  destruct (String.eqb_spec "steals" name) as [<-|_];
    [intros Hs; injection Hs as <-; reflexivity|].
  destruct (String.eqb "__init__" name); discriminate.
Qed.

Lemma lookup_A_guarded name :
  In name game_fields -> exists d, cls_lookup BasketballGameA name = Some (CField d).
Proof.
  intros [<- | [<- | [<- | []]]]; eexists; reflexivity.
Qed.

Lemma setattr_A_preserves name v : preserves (setattr BasketballGameA name v).
Proof.
  intros st Hst. unfold setattr.
  destruct (cls_lookup BasketballGameA name) as [[d|f]|] eqn:E.
  - apply lookup_A_field in E.
    unfold NonNegativeField_set, pybind, dict_setitem.
    destruct (Z.ltb_spec v 0); simpl; [exact Hst|].
    intros k w Hk Hl. rewrite E in Hl.
    destruct (decide (name = k)) as [<-|Hne].
    + rewrite lookup_insert_eq in Hl. injection Hl as <-. assumption.
    + rewrite lookup_insert_ne in Hl by assumption. eauto.
  - intros k w Hk Hl. simpl in Hl.
    destruct (decide (name = k)) as [<-|Hne].
    + destruct (lookup_A_guarded name Hk) as [d Hd]. congruence.
    + rewrite lookup_insert_ne in Hl by assumption. eauto.
  - intros k w Hk Hl. simpl in Hl.
    destruct (decide (name = k)) as [<-|Hne].
    + destruct (lookup_A_guarded name Hk) as [d Hd]. congruence.
    + rewrite lookup_insert_ne in Hl by assumption. eauto.
Qed.

Lemma getattr_state cd name st : snd (getattr cd name st) = st.
Proof.
  unfold getattr.
  destruct (cls_lookup cd name) as [[d|f]|].
  - unfold pybind, NonNegativeField_get, dict_getitem.
    destruct (st !! field d); reflexivity.
  - destruct (st !! name); reflexivity.
  - destruct (st !! name); reflexivity.
Qed.

Lemma run_op_A_preserves o : preserves (run_op BasketballGameA o).
Proof.
  destruct o as [name v|name]; simpl.
  - apply preserves_bind; [apply setattr_A_preserves|intros; apply preserves_ret].
  - intros st H. rewrite getattr_state. exact H.
Qed.

Lemma run_ops_A_preserves ops st :
  fields_nonneg st -> fields_nonneg (snd (run_ops BasketballGameA ops st)).
Proof.
  revert st. induction ops as [|o ops IH]; intros st H; simpl; [exact H|].
  pose proof (run_op_A_preserves o st H) as H1.
  destruct (run_op BasketballGameA o st) as [r st1]. simpl in H1.
  specialize (IH st1 H1).
  destruct (run_ops BasketballGameA ops st1) as [rs st2]. exact IH.
Qed.

Lemma construct_A_nonneg p r s d :
  construct BasketballGameA p r s = Ok d -> fields_nonneg d.
Proof.
  unfold construct. intros H.
  assert (Hp : preserves (game_init BasketballGameA p r s)).
  { unfold game_init.
    apply preserves_bind; [apply setattr_A_preserves|intros _].
    apply preserves_bind; [apply setattr_A_preserves|intros _].
    apply setattr_A_preserves. }
  specialize (Hp ∅ fields_nonneg_empty).
  destruct (game_init BasketballGameA p r s ∅) as [[u|e] st]; [|discriminate].
  injection H as <-. exact Hp.
Qed.

End NonNegFacts.

Module MappingFacts.
Import Mangling.

Lemma append_all_app (acc xs : list val) : append_all acc xs = acc ++ xs.
Proof.
  unfold append_all. revert acc.
  induction xs as [|x xs IH]; intros acc; simpl.
  - by rewrite app_nil_r.
  - rewrite IH. by rewrite <- app_assoc.
Qed.

(** With the plain name [self.update], the subclass's constructor would
    call the two-argument override and fail. *)
Lemma init_unmangled_breaks (xs : list val) :
  init_unmangled {| obj_cls := MappingSubclass; items_list := [] |} xs
  = Raise (TypeError "wrong number of arguments").
Proof. reflexivity. Qed.

End MappingFacts.

Module NamedFacts.
Import NonNeg.

(** After [named_descriptors], every field descriptor of a class stores
    under the name it is bound to. *)
Lemma named_descriptors_field (cd : class_dict) name d :
  cls_lookup (named_descriptors cd) name = Some (CField d) -> field d = name.
Proof.
  induction cd as [|[n a] cd IH]; simpl; [discriminate|].
  destruct a as [d0|f]; simpl.
  - destruct (String.eqb_spec n name) as [<-|_]; [|exact IH].
    intros H. by injection H as <-.
  - destruct (String.eqb n name); [discriminate|exact IH].
Qed.

(** What a validated setter does: raise [ValueError] exactly on negative
    values, with the state untouched, and otherwise store under [key]. *)
Definition rejects_negative (set : Z -> PyM instdict unit) (key : string) : Prop :=
  forall v st,
    ((exists msg, fst (set v st) = Raise (ValueError msg)) <-> (v < 0)%Z) /\
    (fst (set v st) = Ok tt <-> (0 <= v)%Z) /\
    snd (set v st) = (if Z.ltb v 0 then st else <[key := v]> st).

Lemma validated_rejects_negative (key : string) :
  rejects_negative
    (fun value =>
       let! _ := (if Z.ltb value 0
                  then pyraise (ValueError "Positive values only!")
                  else pyret tt) in
       dict_setitem key value) key.
Proof.
  intros v st. unfold pybind, dict_setitem.
  destruct (Z.ltb_spec v 0); simpl.
  - split; [split; [intros _; assumption|intros _; eauto]|].
    split; [split; [discriminate|intros; lia]|reflexivity].
  - split; [split; [intros [msg Hm]; discriminate|intros; lia]|].
    split; [split; [intros _; assumption|reflexivity]|reflexivity].
Qed.

End NamedFacts.

Module NumFacts.
Import NonNegNum.

Definition fields_ok (st : numdict) : Prop :=
  forall k v, In k NonNegFacts.game_fields -> st !! k = Some v -> lt0 v = false.

Definition preserves {A} (m : PyM numdict A) : Prop :=
  forall st, fields_ok st -> fields_ok (snd (m st)).

Lemma num_preserves_bind {A B} (m : PyM numdict A) (k : A -> PyM numdict B) :
  preserves m -> (forall a, preserves (k a)) -> preserves (pybind m k).
Proof.
  intros Hm Hk st Hst. unfold pybind.
  specialize (Hm st Hst). destruct (m st) as [[a|e] st']; simpl in *; [apply Hk|]; exact Hm.
Qed.

Lemma num_setattr_A_preserves name v : preserves (setattr NonNeg.BasketballGameA name v).
Proof.
  intros st Hst. unfold setattr.
  destruct (NonNeg.cls_lookup NonNeg.BasketballGameA name) as [[d|f]|] eqn:E.
  - apply NonNegFacts.lookup_A_field in E.
    unfold NonNegativeField_set, pybind, dict_setitem.
    destruct (lt0 v) eqn:Hv; simpl; [exact Hst|].
    intros k w Hk Hl. rewrite E in Hl.
    destruct (decide (name = k)) as [<-|Hne].
    + rewrite lookup_insert_eq in Hl. injection Hl as <-. exact Hv.
    + rewrite lookup_insert_ne in Hl by assumption. eauto.
  - intros k w Hk Hl. simpl in Hl.
    destruct (decide (name = k)) as [<-|Hne].
    + destruct (NonNegFacts.lookup_A_guarded name Hk) as [d Hd]. congruence.
    + rewrite lookup_insert_ne in Hl by assumption. eauto.
  - intros k w Hk Hl. simpl in Hl.
    destruct (decide (name = k)) as [<-|Hne].
    + destruct (NonNegFacts.lookup_A_guarded name Hk) as [d Hd]. congruence.
    + rewrite lookup_insert_ne in Hl by assumption. eauto.
Qed.

Lemma num_getattr_state cd name (st : numdict) : snd (getattr cd name st) = st.
Proof.
  unfold getattr.
  destruct (NonNeg.cls_lookup cd name) as [[d|f]|].
  - unfold pybind, NonNegativeField_get, dict_getitem.
    destruct (st !! NonNeg.field d); reflexivity.
  - destruct (st !! name); reflexivity.
  - destruct (st !! name); reflexivity.
Qed.

Lemma num_run_ops_A_preserves ops st :
  fields_ok st -> fields_ok (snd (run_ops NonNeg.BasketballGameA ops st)).
Proof.
  revert st. induction ops as [|o ops IH]; intros st H; simpl; [exact H|].
  assert (H1 : fields_ok (snd (run_op NonNeg.BasketballGameA o st))).
  { destruct o as [name v|name]; unfold run_op.
    - exact (num_preserves_bind _ (fun _ => pyret NNone) (num_setattr_A_preserves name v)
               (fun _ s' Hs' => Hs') st H).
    - rewrite num_getattr_state. exact H. }
  destruct (run_op NonNeg.BasketballGameA o st) as [r st1]. simpl in H1.
  specialize (IH st1 H1).
  destruct (run_ops NonNeg.BasketballGameA ops st1) as [rs st2]. exact IH.
Qed.

Lemma num_setattr_keeps_slots cd name v (st : numdict) k :
  is_Some (st !! k) -> is_Some (snd (setattr cd name v st) !! k).
Proof.
  intros Hk. unfold setattr.
  destruct (NonNeg.cls_lookup cd name) as [[d|f]|]; simpl.
  - unfold NonNegativeField_set, pybind, dict_setitem.
    destruct (lt0 v); simpl; [exact Hk|].
    rewrite lookup_insert. case_decide; [done|exact Hk].
  - rewrite lookup_insert. case_decide; [done|exact Hk].
  - rewrite lookup_insert. case_decide; [done|exact Hk].
Qed.

Lemma num_run_ops_keeps_slots cd ops (st : numdict) k :
  is_Some (st !! k) -> is_Some (snd (run_ops cd ops st) !! k).
Proof.
  revert st. induction ops as [|o ops IH]; intros st Hk; simpl; [exact Hk|].
  assert (H1 : is_Some (snd (run_op cd o st) !! k)).
  { destruct o as [name v|name]; simpl.
    - unfold pybind, pyret.
      pose proof (num_setattr_keeps_slots cd name v st k Hk) as Hs.
      destruct (setattr cd name v st) as [[]]; exact Hs.
    - rewrite num_getattr_state. exact Hk. }
  destruct (run_op cd o st) as [r st1]. simpl in H1.
  specialize (IH st1 H1). destruct (run_ops cd ops st1). exact IH.
Qed.

(** What [BasketballGameA(points, rebounds, steals)] returns over Python
    numbers. *)
Lemma construct_A_num (p r s : pynum) :
  construct NonNeg.BasketballGameA p r s =
    if (lt0 p || lt0 r || lt0 s)%bool
    then Raise (ValueError "Positive values only!")
    else Ok (<["steals" := s]> (<["rebounds" := r]> (<["points" := p]> ∅))).
Proof.
  unfold construct, game_init, setattr. simpl.
  unfold NonNegativeField_set, pybind, dict_setitem, pyret, pyraise. simpl.
  destruct (lt0 p), (lt0 r), (lt0 s); reflexivity.
Qed.

Lemma construct_A_fields p r s d :
  construct NonNeg.BasketballGameA p r s = Ok d ->
  fields_ok d /\ forall k, In k NonNegFacts.game_fields -> is_Some (d !! k).
Proof.
  rewrite construct_A_num.
  destruct (lt0 p) eqn:Hp, (lt0 r) eqn:Hr, (lt0 s) eqn:Hs; simpl;
    try discriminate.
  intros H. injection H as <-. split.
  - intros k v [<- | [<- | [<- | []]]] Hl; simpl in Hl; injection Hl as <-; assumption.
  - intros k [<- | [<- | [<- | []]]]; eexists; reflexivity.
Qed.

Lemma session_A_fields cd p r s ops outs st :
  (cd = NonNeg.BasketballGameA \/ cd = NonNeg.BasketballGameB) ->
  session cd p r s ops = Ok (outs, st) ->
  fields_ok st /\ forall k, In k NonNegFacts.game_fields -> is_Some (st !! k).
Proof.
  intros Hcd Hs.
  assert (Hcd' : cd = NonNeg.BasketballGameA)
    by (destruct Hcd as [->| ->]; [reflexivity|exact NonNegFacts.BasketballGameB_eq]).
  subst cd. unfold session in Hs.
  destruct (construct NonNeg.BasketballGameA p r s) as [d|e] eqn:Hc; [|discriminate].
  injection Hs as Hs.
  destruct (construct_A_fields p r s d Hc) as [Hok Hk].
  pose proof (num_run_ops_A_preserves ops d Hok) as H1.
  rewrite Hs in H1. split; [exact H1|].
  intros k Hin. pose proof (num_run_ops_keeps_slots NonNeg.BasketballGameA ops d k (Hk k Hin)) as H2.
  rewrite Hs in H2. exact H2.
Qed.

End NumFacts.

(** ** Claims *)

Import NonNeg NonNegFacts NamedFacts.

(** C1 (as amended): on an instance returned by [BasketballGameA] or
    [BasketballGameB], after any sequence of reads of and assignments to
    [points], [rebounds] and [steals] (failed ones caught), no value
    stored for those fields compares [< 0]; an [int] stored there is
    [>= 0]. *)
Theorem game_fields_not_below_zero (cd : class_dict) (p r s : NonNegNum.pynum)
    (ops : list NonNegNum.op) (outs : list (result NonNegNum.nattr))
    (st : NonNegNum.numdict) :
  (cd = BasketballGameA \/ cd = BasketballGameB) ->
  Forall (fun o => In (NonNegNum.op_name o) ["points"; "rebounds"; "steals"]) ops ->
  NonNegNum.session cd p r s ops = Ok (outs, st) ->
  forall k v, In k ["points"; "rebounds"; "steals"] -> st !! k = Some v ->
  NonNegNum.lt0 v = false /\ (forall z, v = NonNegNum.NInt z -> (0 <= z)%Z).
Proof.
  intros Hcd _ Hs k v Hk Hv.
  destruct (NumFacts.session_A_fields cd p r s ops outs st Hcd Hs) as [Hok _].
  pose proof (Hok k v Hk Hv) as Hlt. split; [exact Hlt|].
  intros z ->. simpl in Hlt. apply Z.ltb_ge. exact Hlt.
Qed.

Lemma game_fields_not_below_zero_witness :
  NonNegNum.lt0 (NonNegNum.NInt 7) = false.
Proof.
  refine (proj1 (game_fields_not_below_zero BasketballGameA
            (NonNegNum.NInt 1) (NonNegNum.NInt 2) (NonNegNum.NInt 3)
            [NonNegNum.OSet "points" (NonNegNum.NInt (-1));
             NonNegNum.OSet "steals" (NonNegNum.NInt 7)]
            [Raise (ValueError "Positive values only!"); Ok NonNegNum.NNone]
            (<["steals" := NonNegNum.NInt 7]>
               (<["rebounds" := NonNegNum.NInt 2]>
                  (<["points" := NonNegNum.NInt 1]> ∅)))
            (or_introl eq_refl) _ _ "steals" (NonNegNum.NInt 7) _ _)).
  - repeat constructor; simpl; tauto.
  - vm_compute. reflexivity.
  - simpl. tauto.
  - vm_compute. reflexivity.
Defined.

(** C1 counterexample: [BasketballGameA(float('nan'), 0, 0)] is accepted,
    since [nan < 0] is false, and stores [nan] for [points], a value that
    is not [>= 0]. *)
Lemma game_fields_nan_stored :
  exists d,
    NonNegNum.construct BasketballGameA
      (NonNegNum.NFloat PrimFloat.nan) (NonNegNum.NInt 0) (NonNegNum.NInt 0) = Ok d /\
    d !! "points" = Some (NonNegNum.NFloat PrimFloat.nan) /\
    NonNegNum.ge0 (NonNegNum.NFloat PrimFloat.nan) = false.
Proof.
  eexists. split; [vm_compute; reflexivity|].
  split; vm_compute; reflexivity.
Qed.

(** C2: [NonNegativeField.__set__] and the [points], [rebounds] and
    [steals] setters of [BasketballGame] raise [ValueError] exactly when
    the value is negative; any value [>= 0], zero included, is accepted
    and stored. *)
Theorem validators_reject_negative (d : NonNegativeField) :
  rejects_negative (NonNegativeField_set d) (field d) /\
  rejects_negative Game.points_set "_points" /\
  rejects_negative Game.rebounds_set "_rebounds" /\
  rejects_negative Game.steals_set "_steals".
Proof.
  split; [apply (validated_rejects_negative (field d))|].
  split; [apply (validated_rejects_negative "_points")|].
  split; [apply (validated_rejects_negative "_rebounds")|].
  apply (validated_rejects_negative "_steals").
Qed.

(** C8: a rejected assignment raises before any mutation: the instance
    [__dict__] after [NonNegativeField.__set__] or a [BasketballGame]
    setter with a negative value is the one before, and the field still
    reads back its previous value. *)
Theorem rejected_write_atomic (d : NonNegativeField) (w v : Z) (st : instdict) :
  st !! field d = Some w -> (v < 0)%Z ->
  NonNegativeField_set d v st = (Raise (ValueError "Positive values only!"), st) /\
  NonNegativeField_get d (snd (NonNegativeField_set d v st)) = (Ok w, st) /\
  Game.points_set v st = (Raise (ValueError "Positive values only!"), st) /\
  Game.rebounds_set v st = (Raise (ValueError "Positive values only!"), st) /\
  Game.steals_set v st = (Raise (ValueError "Positive values only!"), st).
Proof.
  intros Hw Hv.
  unfold NonNegativeField_set, Game.points_set, Game.rebounds_set,
    Game.steals_set, pybind.
  assert (Hb : Z.ltb v 0 = true) by (apply Z.ltb_lt; exact Hv).
  rewrite Hb. simpl.
  unfold NonNegativeField_get, dict_getitem. rewrite Hw.
  repeat split.
Qed.

Lemma rejected_write_atomic_witness :
  NonNegativeField_set (NonNegativeField_init "points") (-5)
    (<["points" := 100%Z]> ∅)
  = (Raise (ValueError "Positive values only!"), <["points" := 100%Z]> ∅).
Proof.
  apply (rejected_write_atomic (NonNegativeField_init "points") 100 (-5)
           (<["points" := 100%Z]> ∅)); [reflexivity|lia].
Defined.

(** C9: on an instance whose class binds [x] to a [NonNegativeField],
    assigning [v >= 0] to [x] succeeds, reading [x] then yields [v], and
    every other slot of the instance [__dict__] is unchanged. *)
Theorem nonneg_set_get_roundtrip (cd : class_dict) (x : string)
    (d : NonNegativeField) (v : Z) (st : instdict) :
  cls_lookup cd x = Some (CField d) -> (0 <= v)%Z ->
  fst (setattr cd x v st) = Ok tt /\
  fst (getattr cd x (snd (setattr cd x v st))) = Ok (AInt v) /\
  (forall k, k <> field d -> snd (setattr cd x v st) !! k = st !! k).
Proof.
  intros Hx Hv.
  unfold setattr, getattr. rewrite Hx.
  unfold NonNegativeField_set, NonNegativeField_get, pybind, dict_setitem,
    dict_getitem.
  assert (Hb : Z.ltb v 0 = false) by (apply Z.ltb_ge; exact Hv).
  rewrite Hb. simpl.
  rewrite lookup_insert_eq.
  split; [reflexivity|]. split; [reflexivity|].
  intros k Hk. apply lookup_insert_ne. congruence.
Qed.

Lemma nonneg_set_get_roundtrip_witness :
  fst (getattr BasketballGameA "points"
         (snd (setattr BasketballGameA "points" 0 ∅))) = Ok (AInt 0).
Proof.
  apply (nonneg_set_get_roundtrip BasketballGameA "points"
           (NonNegativeField_init "points") 0 ∅); [reflexivity|lia].
Defined.

(** C10: [named_descriptors] gives every field descriptor of
    [BasketballGameB] the name it is bound to, and [BasketballGameA] and
    [BasketballGameB] give the same results (values and exceptions) and
    the same final [__dict__] for every construction followed by any
    sequence of reads and assignments. *)
Theorem gameA_gameB_equivalent :
  (forall name d, cls_lookup BasketballGameB name = Some (CField d) -> field d = name) /\
  (forall p r s ops,
     session BasketballGameA p r s ops = session BasketballGameB p r s ops).
Proof.
  split.
  - intros name d. apply named_descriptors_field.
  - intros p r s ops. rewrite BasketballGameB_eq. reflexivity.
Qed.

(** C3: [Mapping.__init__] calls its private copy [_Mapping__update], so
    constructing [MappingSubclass(xs)] or [Mapping(xs)] fills
    [items_list] with exactly the items of [xs], although
    [MappingSubclass.update] takes two arguments (called with one it
    raises [TypeError]). *)
Theorem mangled_update_survives_override (xs : list Mangling.val) :
  Mangling.new Mangling.MappingSubclass [xs]
    = Ok {| Mangling.obj_cls := Mangling.MappingSubclass;
            Mangling.items_list := xs |} /\
  Mangling.new Mangling.Mapping [xs]
    = Ok {| Mangling.obj_cls := Mangling.Mapping;
            Mangling.items_list := xs |} /\
  Mangling.call_method
    {| Mangling.obj_cls := Mangling.MappingSubclass;
       Mangling.items_list := xs |} "update" [xs]
    = Raise (TypeError "wrong number of arguments").
Proof.
  split; [|split]; [| |reflexivity];
    unfold Mangling.new, Mangling.call_method; simpl;
    rewrite MappingFacts.append_all_app; reflexivity.
Qed.

(** C4: for [p = MyProperty(fget, fset, fdel)] bound on a class, [a.x]
    is the result of [fget(a)], [a.x = v] runs [fset(a, v)], [del a.x]
    runs [fdel(a)], and [A.x] on the class returns [p] itself. *)
Theorem myproperty_accessors {St Obj Val Cls : Type}
    (g : Obj -> PyM St Val) (s : Obj -> Val -> PyM St Val)
    (dl : Obj -> PyM St Val) (a : Obj) (owner : Cls) (v : Val) (st : St) :
  let p := Property.MyProperty_init (Some g) (Some s) (Some dl) in
  Property.load_inst p a owner st =
    (match g a st with
     | (Ok r, st') => (Ok (Property.GotValue r), st')
     | (Raise e, st') => (Raise e, st')
     end) /\
  Property.store_inst p a v st =
    (match s a v st with
     | (Ok _, st') => (Ok tt, st')
     | (Raise e, st') => (Raise e, st')
     end) /\
  Property.delete_inst p a st =
    (match dl a st with
     | (Ok _, st') => (Ok tt, st')
     | (Raise e, st') => (Raise e, st')
     end) /\
  Property.load_cls p owner st = (Ok (Property.GotDescriptor p), st).
Proof.
  simpl. unfold Property.load_inst, Property.store_inst, Property.delete_inst,
    Property.load_cls, Property.MyProperty_get, Property.MyProperty_set,
    Property.MyProperty_delete, pybind, pyret. simpl.
  split; [destruct (g a st) as [[]]; reflexivity|].
  split; [destruct (s a v st) as [[]]; reflexivity|].
  split; [destruct (dl a st) as [[]]; reflexivity|].
  reflexivity.
Qed.

(** C5: each [MyProperty] accessor raises its own [AttributeError] (with
    the state untouched) when its backing function is [None]; when the
    function is present the accessor returns whatever that function
    returns or raises, adding no error of its own. *)
Theorem myproperty_missing_accessor {St Obj Val Cls : Type}
    (p : @Property.MyProperty St Obj Val) (a : Obj) (owner : Cls) (v : Val)
    (st : St) :
  (Property.fget p = None ->
   Property.MyProperty_get p (Some a) owner st
     = (Raise (AttributeError "unreadable attribute"), st)) /\
  (forall g, Property.fget p = Some g ->
   Property.MyProperty_get p (Some a) owner st
     = match g a st with
       | (Ok r, st') => (Ok (Property.GotValue r), st')
       | (Raise e, st') => (Raise e, st')
       end) /\
  (Property.fset p = None ->
   Property.MyProperty_set p a v st
     = (Raise (AttributeError "can't set attribute"), st)) /\
  (forall s, Property.fset p = Some s ->
   Property.MyProperty_set p a v st
     = match s a v st with
       | (Ok _, st') => (Ok tt, st')
       | (Raise e, st') => (Raise e, st')
       end) /\
  (Property.fdel p = None ->
   Property.MyProperty_delete p a st
     = (Raise (AttributeError "can't delete attribute"), st)) /\
  (forall dl, Property.fdel p = Some dl ->
   Property.MyProperty_delete p a st
     = match dl a st with
       | (Ok _, st') => (Ok tt, st')
       | (Raise e, st') => (Raise e, st')
       end).
Proof.
  unfold Property.MyProperty_get, Property.MyProperty_set,
    Property.MyProperty_delete, pybind, pyret, pyraise.
  repeat split; intros; match goal with H : _ = _ |- _ => rewrite H end;
    try reflexivity;
    match goal with |- context [match ?m with _ => _ end] =>
      destruct m as [[]]; reflexivity end.
Qed.

(** C6: [MyClassmethod(f).__get__(instance, owner)] ignores [instance]:
    the wrapper it returns is the same for the class access
    ([instance = None]) and for any instance, and calling it calls [f]
    with [owner] prepended to the explicit arguments. *)
Theorem myclassmethod_binds_owner {St Obj Val : Type} (f : pyfunc St Val)
    (i1 i2 : option Obj) (owner : Val) :
  Classmethod.MyClassmethod_get (Classmethod.MyClassmethod_init f) i1 owner
    = Classmethod.MyClassmethod_get (Classmethod.MyClassmethod_init f) i2 owner /\
  (forall args kwargs st,
     Classmethod.MyClassmethod_get (Classmethod.MyClassmethod_init f) i1 owner
       args kwargs st = f (owner :: args) kwargs st).
Proof. split; reflexivity. Qed.

(** C7: [MyStaticmethod(f).__get__(instance, owner)] returns [f] itself,
    for any instance (or [None]) and owner. *)
Theorem mystaticmethod_identity {St Obj Val : Type} (f : pyfunc St Val)
    (i : option Obj) (owner : Val) :
  Staticmethod.MyStaticmethod_get (Staticmethod.MyStaticmethod_init f) i owner = f.
Proof. reflexivity. Qed.

(** ** Further properties of the notebook's code *)

Module FieldFacts.
Import NonNeg.

(** [setattr] never removes a slot of the instance [__dict__]. *)
Lemma setattr_keeps_slots cd name v (st : instdict) k :
  is_Some (st !! k) -> is_Some (snd (setattr cd name v st) !! k).
Proof.
  intros Hk. unfold setattr.
  destruct (cls_lookup cd name) as [[d|f]|]; simpl.
  - unfold NonNegativeField_set, pybind, dict_setitem.
    destruct (Z.ltb v 0); simpl; [exact Hk|].
    rewrite lookup_insert. case_decide; [done|exact Hk].
  - rewrite lookup_insert. case_decide; [done|exact Hk].
  - rewrite lookup_insert. case_decide; [done|exact Hk].
Qed.

Lemma run_ops_keeps_slots cd ops (st : instdict) k :
  is_Some (st !! k) -> is_Some (snd (run_ops cd ops st) !! k).
Proof.
  revert st. induction ops as [|o ops IH]; intros st Hk; simpl; [exact Hk|].
  assert (H1 : is_Some (snd (run_op cd o st) !! k)).
  { destruct o as [name v|name]; simpl.
    - unfold pybind, pyret.
      pose proof (setattr_keeps_slots cd name v st k Hk) as Hs.
      destruct (setattr cd name v st) as [[]]; exact Hs.
    - rewrite NonNegFacts.getattr_state. exact Hk. }
  destruct (run_op cd o st) as [r st1]. simpl in H1.
  specialize (IH st1 H1). destruct (run_ops cd ops st1). exact IH.
Qed.

End FieldFacts.

Import FieldFacts.

(** X1: [BasketballGameA(points, rebounds, steals)] raises
    [ValueError('Positive values only!')] when one of the three values is
    negative, and otherwise returns an instance whose [__dict__] holds
    exactly the three values under their field names. *)
Theorem construct_A_outcome (p r s : Z) :
  construct BasketballGameA p r s =
    if (Z.ltb p 0 || Z.ltb r 0 || Z.ltb s 0)%bool
    then Raise (ValueError "Positive values only!")
    else Ok (<["steals" := s]> (<["rebounds" := r]> (<["points" := p]> ∅))).
Proof.
  unfold construct, game_init, setattr. simpl.
  unfold NonNegativeField_set, pybind, dict_setitem, pyret, pyraise. simpl.
  destruct (Z.ltb p 0), (Z.ltb r 0), (Z.ltb s 0); reflexivity.
Qed.

(** X2: on an instance returned by [BasketballGameA] or
    [BasketballGameB], after any sequence of reads of and assignments to
    [points], [rebounds] and [steals] (failed ones caught), reading any of
    the three never raises: it returns a value that does not compare
    [< 0] and leaves the instance unchanged. *)
Theorem game_fields_always_readable (cd : class_dict) (p r s : NonNegNum.pynum)
    (ops : list NonNegNum.op) (outs : list (result NonNegNum.nattr))
    (st : NonNegNum.numdict) :
  (cd = BasketballGameA \/ cd = BasketballGameB) ->
  Forall (fun o => In (NonNegNum.op_name o) ["points"; "rebounds"; "steals"]) ops ->
  NonNegNum.session cd p r s ops = Ok (outs, st) ->
  forall k, In k ["points"; "rebounds"; "steals"] ->
  exists v, NonNegNum.getattr cd k st = (Ok (NonNegNum.NVal v), st) /\
            NonNegNum.lt0 v = false.
Proof.
  intros Hcd _ Hs k Hk.
  destruct (NumFacts.session_A_fields cd p r s ops outs st Hcd Hs) as [Hok Hsome].
  assert (Hcd' : cd = BasketballGameA)
    by (destruct Hcd as [->| ->]; [reflexivity|exact NonNegFacts.BasketballGameB_eq]).
  subst cd.
  destruct (Hsome k Hk) as [v Hv].
  destruct (NonNegFacts.lookup_A_guarded k Hk) as [dk Hdk].
  pose proof (NonNegFacts.lookup_A_field k dk Hdk) as Hf.
  exists v. split.
  - unfold NonNegNum.getattr. rewrite Hdk.
    unfold pybind, NonNegNum.NonNegativeField_get, NonNegNum.dict_getitem.
    rewrite Hf, Hv. reflexivity.
  - exact (Hok k v Hk Hv).
Qed.

Lemma game_fields_always_readable_witness :
  exists v, NonNegNum.getattr BasketballGameB "rebounds"
              (<["steals" := NonNegNum.NInt 3]>
                 (<["rebounds" := NonNegNum.NInt 2]>
                    (<["points" := NonNegNum.NInt 1]> ∅)))
            = (Ok (NonNegNum.NVal v),
               <["steals" := NonNegNum.NInt 3]>
                 (<["rebounds" := NonNegNum.NInt 2]>
                    (<["points" := NonNegNum.NInt 1]> ∅)))
            /\ NonNegNum.lt0 v = false.
Proof.
  refine (game_fields_always_readable BasketballGameB
            (NonNegNum.NInt 1) (NonNegNum.NInt 2) (NonNegNum.NInt 3)
            [NonNegNum.OGet "points"; NonNegNum.OSet "steals" (NonNegNum.NInt (-4))]
            _ _ (or_intror eq_refl) _ _ "rebounds" _).
  - repeat constructor; simpl; tauto.
  - vm_compute. reflexivity.
  - simpl. tauto.
Defined.

(** X3: only the names bound to a [NonNegativeField] are validated: any
    other attribute of a [BasketballGameA] instance, such as a new
    [blocks], accepts any number, negative ones included, stores it in
    the instance [__dict__] under its own name and reads it back.  Names
    starting with [__] are left out: Python's own entries of [object]
    and of a class's dictionary ([__dict__], [__weakref__], [__class__],
    ...) all start with [__] and are not part of [class_dict]. *)
Theorem unguarded_attribute_accepts_any (name : string) (v : Z) (st : instdict) :
  ~ In name ["points"; "rebounds"; "steals"] ->
  String.prefix "__" name = false ->
  setattr BasketballGameA name v st = (Ok tt, <[name := v]> st) /\
  fst (getattr BasketballGameA name (<[name := v]> st)) = Ok (AInt v).
Proof.
  intros Hn _.
  assert (Hl : forall d, cls_lookup BasketballGameA name <> Some (CField d)).
  { intros d. unfold BasketballGameA. cbn [cls_lookup].
    destruct (String.eqb_spec "points" name) as [<-|_]; [simpl in Hn; tauto|].
    destruct (String.eqb_spec "rebounds" name) as [<-|_]; [simpl in Hn; tauto|].
    destruct (String.eqb_spec "steals" name) as [<-|_]; [simpl in Hn; tauto|].
    destruct (String.eqb "__init__" name); discriminate. }
  unfold setattr, getattr.
  destruct (cls_lookup BasketballGameA name) as [[d|f]|]; [exfalso; exact (Hl d eq_refl)| |];
    simpl; rewrite lookup_insert_eq; split; reflexivity.
Qed.

Lemma unguarded_attribute_accepts_any_witness :
  setattr BasketballGameA "blocks" (-1) ∅ = (Ok tt, <["blocks" := (-1)%Z]> ∅).
Proof.
  apply (unguarded_attribute_accepts_any "blocks" (-1) ∅).
  - simpl. intros [H|[H|[H|[]]]]; discriminate.
  - reflexivity.
Defined.

(** X4: without [named_descriptors] the three [NonNegativeField()]
    descriptors of [BasketballGameB]'s body keep the default field name
    [''] and share one slot: construction stores only the last value,
    and [points], [rebounds] and [steals] all read back [steals]. *)
Theorem undecorated_fields_alias (p r s : Z) :
  construct BasketballGameB_body p r s =
    (if (Z.ltb p 0 || Z.ltb r 0 || Z.ltb s 0)%bool
     then Raise (ValueError "Positive values only!")
     else Ok {[ "" := s ]}) /\
  (forall k, In k ["points"; "rebounds"; "steals"] ->
   getattr BasketballGameB_body k {[ "" := s ]} = (Ok (AInt s), {[ "" := s ]})).
Proof.
  split.
  - unfold construct, game_init, setattr. simpl.
    unfold NonNegativeField_set, pybind, dict_setitem, pyret, pyraise. simpl.
    destruct (Z.ltb p 0), (Z.ltb r 0), (Z.ltb s 0); reflexivity.
  - intros k [<- | [<- | [<- | []]]]; reflexivity.
Qed.

(** X5: [BasketballGame(points, rebounds, steals, blocks)] runs the three
    validating setters in order, so the first negative value among
    [points], [rebounds], [steals] raises [ValueError] with the earlier
    fields already stored; [blocks] is stored without any check, and on
    success the getters return the three values. *)
Theorem BasketballGame_init_outcome (p r s b : Z) :
  Game.BasketballGame_init p r s b ∅ =
    (if Z.ltb p 0 then (Raise (ValueError "Positive values only!"), ∅)
     else if Z.ltb r 0 then
       (Raise (ValueError "Positive values only!"), <["_points" := p]> ∅)
     else if Z.ltb s 0 then
       (Raise (ValueError "Positive values only!"),
        <["_rebounds" := r]> (<["_points" := p]> ∅))
     else
       (Ok tt, <["blocks" := b]> (<["_steals" := s]>
                 (<["_rebounds" := r]> (<["_points" := p]> ∅))))) /\
  (let d := <["blocks" := b]> (<["_steals" := s]>
              (<["_rebounds" := r]> (<["_points" := p]> ∅))) in
   Game.points_get d = (Ok p, d) /\
   Game.rebounds_get d = (Ok r, d) /\
   Game.steals_get d = (Ok s, d)).
Proof.
  split.
  - unfold Game.BasketballGame_init, Game.points_set, Game.rebounds_set,
      Game.steals_set, pybind, dict_setitem, pyret, pyraise.
    destruct (Z.ltb p 0), (Z.ltb r 0), (Z.ltb s 0); reflexivity.
  - repeat split.
Qed.

Module MappingFacts2.
Import Mangling.

Lemma zip_length (ks vs : list val) : length (zip ks vs) = Nat.min (length ks) (length vs).
Proof. unfold zip. rewrite length_map. apply length_combine. Qed.

End MappingFacts2.

(** X6: the calls of cell 3 compose: [MappingSubclass(xs)], then
    [update(ks, vs)], then [_Mapping__update(ys)] leaves
    [xs ++ zip(ks, vs) ++ ys] in [items_list]; for [Mapping(xs)],
    [update(ys)] then [_Mapping__update(zs)] leaves [xs ++ ys ++ zs]. *)
Theorem mapping_updates_compose (xs ks vs ys zs : list Mangling.val) :
  Mangling.then_call
    (Mangling.then_call (Mangling.new Mangling.MappingSubclass [xs])
       "update" [ks; vs])
    "_Mapping__update" [ys]
  = Ok {| Mangling.obj_cls := Mangling.MappingSubclass;
          Mangling.items_list := xs ++ Mangling.zip ks vs ++ ys |} /\
  Mangling.then_call
    (Mangling.then_call (Mangling.new Mangling.Mapping [xs]) "update" [ys])
    "_Mapping__update" [zs]
  = Ok {| Mangling.obj_cls := Mangling.Mapping;
          Mangling.items_list := xs ++ ys ++ zs |}.
Proof.
  split; unfold Mangling.then_call, Mangling.new, Mangling.call_method; simpl;
    rewrite !MappingFacts.append_all_app; simpl; rewrite app_assoc; reflexivity.
Qed.

(** X7: [MappingSubclass.update(keys, values)] appends the pairs of
    [zip(keys, values)] after the existing items: as many pairs as the
    shorter of the two iterables. *)
Theorem subclass_update_appends_pairs (items ks vs : list Mangling.val) :
  Mangling.call_method
    {| Mangling.obj_cls := Mangling.MappingSubclass;
       Mangling.items_list := items |} "update" [ks; vs]
  = Ok {| Mangling.obj_cls := Mangling.MappingSubclass;
          Mangling.items_list := items ++ Mangling.zip ks vs |} /\
  length (Mangling.zip ks vs) = Nat.min (length ks) (length vs).
Proof.
  split; [|apply MappingFacts2.zip_length].
  unfold Mangling.call_method. simpl. rewrite MappingFacts.append_all_app.
  reflexivity.
Qed.

Module ShadowFacts.
Import Shadowing.

Lemma clookup_dunder_none (cd : cdict) (name : string) :
  Forall (fun e => dunder_prefixed (fst e) = true) cd ->
  dunder_prefixed name = false -> clookup cd name = None.
Proof.
  intros Hcd Hd. induction Hcd as [|[n e] cd Hn Hcd IH]; simpl; [reflexivity|].
  destruct (String.eqb_spec n name) as [<-|_]; [simpl in Hn; congruence|exact IH].
Qed.

(** Along [A]'s MRO, a name without the [__] prefix is bound only to
    [A.y] or [B.x], both plain values. *)
Lemma mro_A_plain (od : cdict) (name : string) :
  Forall (fun e => dunder_prefixed (fst e) = true) od ->
  dunder_prefixed name = false ->
  mro_lookup (mro_A od) name =
    if String.eqb "y" name then Some (CVal (PInt 2))
    else if String.eqb "x" name then Some (CVal (PInt 1))
    else None.
Proof.
  intros Hod Hd. unfold mro_A, A_dict, B_dict. cbn [mro_lookup clookup].
  destruct (String.eqb_spec "__module__" name) as [<-|_]; [discriminate Hd|].
  destruct (String.eqb_spec "y" name) as [<-|_]; [reflexivity|].
  destruct (String.eqb_spec "__getattr__" name) as [<-|_]; [discriminate Hd|].
  destruct (String.eqb_spec "__doc__" name) as [<-|_]; [discriminate Hd|].
  destruct (String.eqb_spec "__module__" name) as [<-|_]; [discriminate Hd|].
  destruct (String.eqb_spec "x" name) as [<-|_]; [reflexivity|].
  destruct (String.eqb_spec "__dict__" name) as [<-|_]; [discriminate Hd|].
  destruct (String.eqb_spec "__weakref__" name) as [<-|_]; [discriminate Hd|].
  destruct (String.eqb_spec "__doc__" name) as [<-|_]; [discriminate Hd|].
  cbn [mro_lookup]. rewrite (clookup_dunder_none od name Hod Hd). reflexivity.
Qed.

End ShadowFacts.

(** X8: on an instance of cell 7's [A], a name without the [__] prefix
    that is neither [x] nor [y] and is not in the instance [__dict__]
    does not raise: the fallback [__getattr__] returns the name itself
    as a string. *)
Theorem getattr_fallback_returns_name (object_dict : Shadowing.cdict)
    (inst : gmap string Shadowing.pv) (name : string) :
  Forall (fun e => Shadowing.dunder_prefixed (fst e) = true) object_dict ->
  Shadowing.dunder_prefixed name = false -> name <> "x" -> name <> "y" ->
  inst !! name = None ->
  Shadowing.inst_getattr object_dict inst name = Shadowing.RVal (Shadowing.PStr name).
Proof.
  intros Hod Hd Hx Hy Hi. unfold Shadowing.inst_getattr.
  rewrite (ShadowFacts.mro_A_plain object_dict name Hod Hd).
  destruct (String.eqb_spec "y" name); [congruence|].
  destruct (String.eqb_spec "x" name); [congruence|].
  rewrite Hi. reflexivity.
Qed.

Lemma getattr_fallback_returns_name_witness :
  Shadowing.inst_getattr
    [("__class__", Shadowing.CDataDesc "__class__");
     ("__init__", Shadowing.CFunc "__init__")] ∅ "z"
  = Shadowing.RVal (Shadowing.PStr "z").
Proof.
  apply (getattr_fallback_returns_name
           [("__class__", Shadowing.CDataDesc "__class__");
            ("__init__", Shadowing.CFunc "__init__")] ∅ "z").
  - repeat constructor.
  - reflexivity.
  - discriminate.
  - discriminate.
  - reflexivity.
Defined.

(** X9: on an instance of cell 7's [A], assigning [a.name = v] for a name
    without the [__] prefix stores [v] in the instance [__dict__]; then
    [a.name] reads [v], hiding a class attribute of that name ([A.y],
    [B.x]) for this instance, and every other such name reads as before. *)
Theorem instance_assignment_shadows (object_dict : Shadowing.cdict)
    (inst : gmap string Shadowing.pv) (name : string) (v : Shadowing.pv) :
  Forall (fun e => Shadowing.dunder_prefixed (fst e) = true) object_dict ->
  Shadowing.dunder_prefixed name = false ->
  Shadowing.inst_setattr object_dict inst name v = Some (<[name := v]> inst) /\
  Shadowing.inst_getattr object_dict (<[name := v]> inst) name = Shadowing.RVal v /\
  (forall other, other <> name -> Shadowing.dunder_prefixed other = false ->
   Shadowing.inst_getattr object_dict (<[name := v]> inst) other
     = Shadowing.inst_getattr object_dict inst other).
Proof.
  intros Hod Hd.
  unfold Shadowing.inst_setattr, Shadowing.inst_getattr.
  rewrite (ShadowFacts.mro_A_plain object_dict name Hod Hd).
  split; [|split].
  - destruct (String.eqb "y" name); [reflexivity|].
    destruct (String.eqb "x" name); reflexivity.
  - rewrite lookup_insert_eq.
    destruct (String.eqb "y" name); [reflexivity|].
    destruct (String.eqb "x" name); reflexivity.
  - intros other Hne Hdo.
    rewrite (ShadowFacts.mro_A_plain object_dict other Hod Hdo).
    rewrite lookup_insert_ne by congruence. reflexivity.
Qed.

Lemma instance_assignment_shadows_witness :
  Shadowing.inst_setattr [] ∅ "y" (Shadowing.PInt 3)
  = Some (<["y" := Shadowing.PInt 3]> ∅).
Proof.
  apply (instance_assignment_shadows [] ∅ "y" (Shadowing.PInt 3)).
  - constructor.
  - reflexivity.
Defined.

Module PropertyDemoFacts.
Import PropertyDemo.

Lemma run_xop_keeps_x o st :
  idict (snd (run_xop (XProp x_prop) o st)) !! "x" = idict st !! "x".
Proof.
  destruct o as [|v|]; simpl.
  - unfold get_x, Property.load_inst, Property.MyProperty_get, x_prop,
      Property.setter, Property.MyProperty_init, x_fget, self_getattr,
      print, pybind, pyret, pyraise. simpl.
    destruct (idict st !! "_x") eqn:E; simpl; rewrite ?E; reflexivity.
  - unfold set_x, Property.store_inst, Property.MyProperty_set, x_prop,
      Property.setter, Property.MyProperty_init, x_fset, self_setattr,
      print, pybind, pyret. simpl.
    rewrite lookup_insert_ne by discriminate. reflexivity.
  - reflexivity.
Qed.

Lemma run_xops_keeps_x ops st :
  idict (run_xops (XProp x_prop) ops st) !! "x" = idict st !! "x".
Proof.
  revert st. induction ops as [|o ops IH]; intros st; simpl; [reflexivity|].
  rewrite IH. apply run_xop_keeps_x.
Qed.

End PropertyDemoFacts.

(** X10: with [x] bound to cell 20's property, [a.x = v] prints
    ["setting _x to v"] and stores [v] in [a._x]; reading [a.x] then
    prints ["returning _x: v"] and returns [v]. *)
Theorem property_demo_set_then_get (v : PropertyDemo.pv) (st : PropertyDemo.state) :
  let c := PropertyDemo.XProp PropertyDemo.x_prop in
  let st1 := {| PropertyDemo.idict := <["_x" := v]> (PropertyDemo.idict st);
                PropertyDemo.out := PropertyDemo.out st ++
                  [String.append "setting _x to " (PropertyDemo.py_str v)] |} in
  PropertyDemo.set_x c v st = (Ok tt, st1) /\
  PropertyDemo.get_x c st1 =
    (Ok (Property.GotValue v),
     {| PropertyDemo.idict := PropertyDemo.idict st1;
        PropertyDemo.out := PropertyDemo.out st1 ++
          [String.append "returning _x: " (PropertyDemo.py_str v)] |}).
Proof.
  simpl. split.
  - reflexivity.
  - unfold PropertyDemo.get_x, Property.load_inst, Property.MyProperty_get,
      PropertyDemo.x_prop, Property.setter, Property.MyProperty_init,
      PropertyDemo.x_fget, PropertyDemo.self_getattr, PropertyDemo.print,
      pybind, pyret. simpl.
    rewrite lookup_insert_eq. cbn [PropertyDemo.idict PropertyDemo.out].
    rewrite lookup_insert_eq. reflexivity.
Qed.

(** X11: with [x] bound to cell 20's property, [del a.x] always raises
    [AttributeError("can't delete attribute")] (no deleter was given),
    and reading [a.x] when [a] has no [_x] raises [AttributeError]
    before anything is printed; in both cases the state is unchanged. *)
Theorem property_demo_error_edges :
  (forall st : PropertyDemo.state,
     PropertyDemo.del_x (PropertyDemo.XProp PropertyDemo.x_prop) st
       = (Raise (AttributeError "can't delete attribute"), st)) /\
  (forall st : PropertyDemo.state,
     PropertyDemo.idict st !! "_x" = None ->
     PropertyDemo.get_x (PropertyDemo.XProp PropertyDemo.x_prop) st
       = (Raise (AttributeError "_x"), st)).
Proof.
  split; [reflexivity|].
  intros st H.
  unfold PropertyDemo.get_x, Property.load_inst, Property.MyProperty_get,
    PropertyDemo.x_prop, Property.setter, Property.MyProperty_init,
    PropertyDemo.x_fget, PropertyDemo.self_getattr, pybind. simpl.
  rewrite H. reflexivity.
Qed.

(** X12: all reads, assignments and deletions of [a.x] through cell 20's
    property go to [_x] and never create an [x] entry in the instance
    [__dict__]; so after [A.x = value] replaces the descriptor on the
    class (cell 21), [a.x] on an instance built by [A(x0)] returns the
    new class value. *)
Theorem property_demo_replaced_descriptor (x0 v : PropertyDemo.pv)
    (ops : list PropertyDemo.xop) :
  let st := PropertyDemo.run_xops (PropertyDemo.XProp PropertyDemo.x_prop) ops
              (snd (PropertyDemo.A_init x0
                      {| PropertyDemo.idict := ∅; PropertyDemo.out := [] |})) in
  PropertyDemo.idict st !! "x" = None /\
  PropertyDemo.get_x (PropertyDemo.XPlain v) st = (Ok (Property.GotValue v), st).
Proof.
  simpl.
  assert (H : PropertyDemo.idict
                (PropertyDemo.run_xops (PropertyDemo.XProp PropertyDemo.x_prop) ops
                   {| PropertyDemo.idict := <["_x" := x0]> ∅; PropertyDemo.out := [] |})
              !! "x" = None).
  { rewrite PropertyDemoFacts.run_xops_keeps_x. reflexivity. }
  split; [exact H|].
  unfold PropertyDemo.get_x. rewrite H. reflexivity.
Qed.

